(** * AirVision: the advisory, forecast, attribution and policy core of app.py

    A shallow embedding of the computational core of [app.py]:
    [health_advisory], [calibrated_forecast], [source_buckets], the policy
    simulator of the "Sources & Policy" page and the [aqi_hex] helper of the
    "Live Map" page.

    Numbers.  The specification types every quantity as a real number, and
    the first model follows it: a Python [float] (and a numpy [float64]) is
    an element of [R] and [+], [-], [*], [/] are the exact field operations.
    The threshold comparisons, the identities that involve no rounding and
    the inequalities that rounding keeps carry over to the running program
    as they are.  Where a property depends on the rounding of the running
    program, the functions are given a second time on binary64 floats
    ([calibrated_forecast64], [source_buckets64], [policy_eff64],
    [simulate64]), operation for operation.  A Python [int] is an element
    of [Z] and [float(n)] is [IZR n].

    Failure.  Python's [/] raises on a zero divisor and [d[k]] raises on a
    missing key; both are modelled in the [option] monad ([None] is the
    raised exception).  Division by a non-zero literal cannot raise and is
    written with the total [/] of [R]. *)

From Stdlib Require Import Reals Lra Lia List String ZArith Floats.
Import ListNotations.

Open Scope string_scope.
Open Scope R_scope.

(** ** Python values *)

(** The [option] monad for code that may raise. *)
Definition bind {A B : Type} (m : option A) (k : A -> option B) : option B :=
  match m with
  | Some a => k a
  | None => None
  end.

Notation "x <- m ;; k" := (bind m (fun x => k))
  (at level 61, m at next level, right associativity).

(** Python's [x / y] on floats: [ZeroDivisionError] when [y == 0]. *)
Definition py_div (x y : R) : option R :=
  if Req_dec_T y 0 then None else Some (x / y).

(** Python's [x or y] on numbers: [x] when [x] is truthy (non-zero). *)
Definition py_or (x y : R) : R :=
  if Req_dec_T x 0 then y else x.

(** Python's [sum(xs)]: a left fold of [+] that starts from [0]. *)
Definition py_sum (xs : list R) : R := fold_left Rplus xs 0.

(** A [dict] with string keys: the entries in insertion order, each key
    once. *)
Definition dict : Type := list (string * R).

(** [d[k]], with [None] for [KeyError]. *)
Fixpoint dict_getitem (d : dict) (k : string) : option R :=
  match d with
  | [] => None
  | (k', v) :: d' => if String.eqb k' k then Some v else dict_getitem d' k
  end.

(** [d.get(k, dflt)]. *)
Definition dict_get (d : dict) (k : string) (dflt : R) : R :=
  match dict_getitem d k with
  | Some v => v
  | None => dflt
  end.

(** [d[k] = v]: an existing key keeps its position, a new key goes last. *)
Fixpoint dict_setitem (d : dict) (k : string) (v : R) : dict :=
  match d with
  | [] => [(k, v)]
  | (k', v') :: d' =>
      if String.eqb k' k then (k', v) :: d' else (k', v') :: dict_setitem d' k v
  end.

(** [dict(pairs)]. *)
Definition dict_of (pairs : list (string * R)) : dict :=
  fold_left (fun d kv => dict_setitem d (fst kv) (snd kv)) pairs [].

(** [d.values()] and [d.keys()], in insertion order. *)
Definition dict_values (d : dict) : list R := map snd d.
Definition dict_keys (d : dict) : list string := map fst d.

(** [{k: f(v) for k, v in d.items()}] for an [f] that cannot raise. *)
Definition dict_map (f : R -> R) (d : dict) : dict :=
  map (fun kv => (fst kv, f (snd kv))) d.

(** [{k: f(v) for k, v in d.items()}] for an [f] that may raise: the first
    failure aborts the comprehension. *)
Fixpoint dict_mapM (f : R -> option R) (d : dict) : option dict :=
  match d with
  | [] => Some []
  | (k, v) :: d' =>
      v' <- f v ;;
      r <- dict_mapM f d' ;;
      Some ((k, v') :: r)
  end.

(** ** HEALTH ADVISORY (app.py, [health_advisory]) *)

(** The returned tuple [(status, advice, mask, outdoor, color)]. *)
Definition Advisory : Type := (string * string * string * string * string)%type.

Definition status (a : Advisory) : string := let '(s, _, _, _, _) := a in s.
Definition advice (a : Advisory) : string := let '(_, s, _, _, _) := a in s.
Definition mask (a : Advisory) : string := let '(_, _, s, _, _) := a in s.
Definition outdoor (a : Advisory) : string := let '(_, _, _, s, _) := a in s.
Definition color (a : Advisory) : string := let '(_, _, _, _, s) := a in s.

Definition health_advisory (aqi : R) : Advisory :=
  if Rle_dec aqi 50 then
    ("Good 🌱", "Ideal air quality", "No mask needed",
     "Perfect for outdoor activities", "#14c38e")
  else if Rle_dec aqi 100 then
    ("Satisfactory 🙂", "Minor breathing discomfort", "Mask optional",
     "Ideal for morning/evening", "#e3c84e")
  else if Rle_dec aqi 200 then
    ("Moderate 😐", "Breathing discomfort", "Light mask recommended",
     "Avoid prolonged exposure", "#f5a742")
  else if Rle_dec aqi 300 then
    ("Poor 😷", "Respiratory illness possible", "N95 mask essential",
     "Limit outdoor activities", "#ef5b5b")
  else if Rle_dec aqi 400 then
    ("Very Poor 😵", "Health impacts likely", "Strict N95 protection",
     "Minimize outdoor time", "#8f6bf6")
  else
    ("Severe ☠️", "Health emergency", "Stay indoors with purifier",
     "Avoid all outdoor activities", "#ff0000").

(** The six tiers of the advisory table, lowest first. *)
Definition tier_good : Advisory :=
  ("Good 🌱", "Ideal air quality", "No mask needed",
   "Perfect for outdoor activities", "#14c38e").
Definition tier_satisfactory : Advisory :=
  ("Satisfactory 🙂", "Minor breathing discomfort", "Mask optional",
   "Ideal for morning/evening", "#e3c84e").
Definition tier_moderate : Advisory :=
  ("Moderate 😐", "Breathing discomfort", "Light mask recommended",
   "Avoid prolonged exposure", "#f5a742").
Definition tier_poor : Advisory :=
  ("Poor 😷", "Respiratory illness possible", "N95 mask essential",
   "Limit outdoor activities", "#ef5b5b").
Definition tier_very_poor : Advisory :=
  ("Very Poor 😵", "Health impacts likely", "Strict N95 protection",
   "Minimize outdoor time", "#8f6bf6").
Definition tier_severe : Advisory :=
  ("Severe ☠️", "Health emergency", "Stay indoors with purifier",
   "Avoid all outdoor activities", "#ff0000").

Definition tiers : list Advisory :=
  [tier_good; tier_satisfactory; tier_moderate; tier_poor; tier_very_poor;
   tier_severe].

(** ** LIVE MAP (app.py, [aqi_hex]) *)

Definition aqi_hex (aqi : R) : string :=
  if Rle_dec aqi 50 then "#14c38e"
  else if Rle_dec aqi 100 then "#e3c84e"
  else if Rle_dec aqi 200 then "#f5a742"
  else if Rle_dec aqi 300 then "#ef5b5b"
  else if Rle_dec aqi 400 then "#8f6bf6"
  else "#ff0000".

(** ** FORECAST, ANCHOR TO TODAY (app.py, [calibrated_forecast]) *)

(** The SARIMAX model is an opaque predictor: all the code uses of it is
    [model.forecast(steps=n)], a sequence of floats. *)
Record Model : Type := { forecast : nat -> list R }.

(** [base + shift] on a numpy array adds [shift] to every element. *)
Definition calibrated_forecast (model : Model) (live_aqi : option R)
    (steps : nat) : list R :=
  let base := forecast model steps in
  match live_aqi, base with
  | None, _ => base
  | Some _, [] => base
  | Some live, b0 :: _ =>
      let shift := live - b0 in
      map (fun v => v + shift) base
  end.

(** ** SOURCE BUCKETS (app.py, [source_buckets]) *)

Definition features : list string :=
  ["PM2.5"; "PM10"; "NO2"; "SO2"; "CO"; "O3"].

(** The [buckets] literal of [source_buckets]: the four raw sums.  The
    global [importance] (the classifier's importance vector) is taken as
    an argument; [zip] stops at the shorter of its two arguments. *)
Definition bucket_sums (importance : list R) : dict :=
  let m := dict_of (combine features importance) in
  [ ("Traffic (NO₂ + CO)", dict_get m "NO2" 0 + dict_get m "CO" 0);
    ("Dust & Stubble (PM2.5 + PM10)", dict_get m "PM2.5" 0 + dict_get m "PM10" 0);
    ("Industry (SO₂)", dict_get m "SO2" 0);
    ("Photochemical (O₃)", dict_get m "O3" 0) ].

Definition source_buckets (importance : list R) : option dict :=
  let buckets := bucket_sums importance in
  let total := py_or (py_sum (dict_values buckets)) 1 in
  dict_mapM (fun v => q <- py_div v total ;; Some (q * 100)) buckets.

(** ** POLICY SIMULATOR (app.py, "Sources & Policy" page) *)

(** The impact calculation.  [t], [d], [i], [p] are the four slider values
    (integers of 0..60 in the page; any real is accepted here). *)
Definition policy_eff (buckets : dict) (t d i p : R) : option R :=
  let w := dict_map (fun v => v / 100) buckets in
  wt <- dict_getitem w "Traffic (NO₂ + CO)" ;;
  wd <- dict_getitem w "Dust & Stubble (PM2.5 + PM10)" ;;
  wi <- dict_getitem w "Industry (SO₂)" ;;
  wp <- dict_getitem w "Photochemical (O₃)" ;;
  Some (wt * (t / 100) + wd * (d / 100) + wi * (i / 100) + wp * (p / 100)).

(** [baseline = float(live) if live is not None else 200.0], where [live]
    is the integer index of [get_live_aqi]. *)
Definition policy_baseline (live : option Z) : R :=
  match live with
  | Some l => IZR l
  | None => 200
  end.

(** The simulator for a given baseline: the projected index [improved] and
    its advisory tier. *)
Definition simulate (buckets : dict) (t d i p : R) (baseline : R)
    : option (R * Advisory) :=
  eff <- policy_eff buckets t d i p ;;
  let improved := baseline * (1 - eff) in
  Some (improved, health_advisory improved).

(** The page fragment as written: the baseline is selected from the live
    reading. *)
Definition policy_simulator (buckets : dict) (t d i p : R)
    (live : option Z) : option (R * Advisory) :=
  simulate buckets t d i p (policy_baseline live).

(** The bucket dictionary of a run of the page, from four percentages. *)
Definition buckets_of (bt bd bi bp : R) : dict :=
  [ ("Traffic (NO₂ + CO)", bt);
    ("Dust & Stubble (PM2.5 + PM10)", bd);
    ("Industry (SO₂)", bi);
    ("Photochemical (O₃)", bp) ].

(** [buckets] maps the four bucket names to [bt], [bd], [bi] and [bp]
    (in any order, whatever else it holds). *)
Definition has_buckets (buckets : dict) (bt bd bi bp : R) : Prop :=
  dict_getitem buckets "Traffic (NO₂ + CO)" = Some bt /\
  dict_getitem buckets "Dust & Stubble (PM2.5 + PM10)" = Some bd /\
  dict_getitem buckets "Industry (SO₂)" = Some bi /\
  dict_getitem buckets "Photochemical (O₃)" = Some bp.

(** ** Severity order of the advisory table *)

Definition advisory_eqb (a b : Advisory) : bool :=
  String.eqb (status a) (status b) && String.eqb (advice a) (advice b) &&
  String.eqb (mask a) (mask b) && String.eqb (outdoor a) (outdoor b) &&
  String.eqb (color a) (color b).

Fixpoint index_of (a : Advisory) (l : list Advisory) : nat :=
  match l with
  | [] => O
  | b :: l' => if advisory_eqb a b then O else S (index_of a l')
  end.

(** The position of a tuple in the advisory table: 0 for the "Good" tier,
    5 for the "Severe" tier (6 for a tuple that is not in the table). *)
Definition tier_rank (a : Advisory) : nat := index_of a tiers.

(** ** TOKEN & HELPERS (app.py, [_get_token]) *)

(** Python's truth value of an [Optional[str]]: [None] and the empty string
    are falsy. *)
Definition truthy (token : option string) : bool :=
  match token with
  | Some s => negb (String.eqb s "")
  | None => false
  end.

(** [secrets] is the outcome of [st.secrets.get("WAQI_TOKEN", None)]:
    [None] when the access raised (no secrets file), else the value found
    ([Some None] when the key is not set).  [env] is
    [os.getenv("WAQI_TOKEN", None)]. *)
Definition _get_token (secrets : option (option string)) (env : option string)
    : option string :=
  let token := match secrets with
               | Some v => v
               | None => None
               end in
  if negb (truthy token) then env else token.

(** ** LIVE AQI API (app.py, [get_live_aqi], [get_ncr_points]) *)

(** The values that [response.json()] can return; a dict is the list of
    its items, each key once. *)
#[warnings="-register-all"]
Inductive json : Type :=
| JNone
| JBool (b : bool)
| JInt (n : Z)
| JFloat (x : R)
| JStr (s : string)
| JList (l : list json)
| JDict (d : list (string * json)).

(** What the function takes from the Python runtime and from the network:
    the exceptions and their text, the conversions [int(x)] and [float(x)],
    the characters of a [str], and the outcome of
    [requests.get(url, timeout=15).json()] for each [url]. *)
Record Runtime : Type := {
  exn : Type;
  str_of_exn : exn -> string;
  KeyError : string -> exn;
  TypeError : exn;
  AttributeError : exn;
  ValueError : exn;
  py_int : json -> exn + Z;
  py_float : json -> exn + R;
  str_chars : string -> list string;
  requests_get_json : string -> exn + json
}.

(** Code that may raise an exception of the runtime. *)
Definition ebind {E A B : Type} (m : E + A) (k : A -> E + B) : E + B :=
  match m with
  | inl e => inl e
  | inr a => k a
  end.

Notation "x <~ m ;; k" := (ebind m (fun x => k))
  (at level 61, m at next level, right associativity).

Fixpoint assoc {A : Type} (d : list (string * A)) (k : string) : option A :=
  match d with
  | [] => None
  | (k', v) :: d' => if String.eqb k' k then Some v else assoc d' k
  end.

(** [x.get(k)]: only a dict has the method. *)
Definition json_get (rt : Runtime) (x : json) (k : string) : exn rt + json :=
  match x with
  | JDict d => inr (match assoc d k with
                    | Some v => v
                    | None => JNone
                    end)
  | _ => inl (AttributeError rt)
  end.

(** [x[k]] for a string [k]: a missing key is a [KeyError], and no other
    JSON value can be indexed by a string. *)
Definition json_getitem (rt : Runtime) (x : json) (k : string) : exn rt + json :=
  match x with
  | JDict d => match assoc d k with
               | Some v => inr v
               | None => inl (KeyError rt k)
               end
  | _ => inl (TypeError rt)
  end.

(** [x != s] for a string literal [s]. *)
Definition json_ne_str (x : json) (s : string) : bool :=
  match x with
  | JStr s' => negb (String.eqb s' s)
  | _ => true
  end.

(** The items that [a, b = x] iterates over: the elements of a list, the
    characters of a string, the keys of a dict. *)
Definition json_iter (rt : Runtime) (x : json) : exn rt + list json :=
  match x with
  | JList l => inr l
  | JStr s => inr (map JStr (str_chars rt s))
  | JDict d => inr (map (fun kv => JStr (fst kv)) d)
  | _ => inl (TypeError rt)
  end.

(** [a, b = x]. *)
Definition unpack2 (rt : Runtime) (x : json) : exn rt + (json * json) :=
  items <~ json_iter rt x ;;
  match items with
  | [a; b] => inr (a, b)
  | _ => inl (ValueError rt)
  end.

(** The result [(aqi, (lat, lon), res)]. *)
Definition LiveAqi : Type := (option Z * option (R * R) * json)%type.

(** The body of the [try] block of [get_live_aqi]. *)
Definition fetch_live_aqi (rt : Runtime) (url : string) : exn rt + LiveAqi :=
  res <~ requests_get_json rt url ;;
  st <~ json_get rt res "status" ;;
  if json_ne_str st "ok" then inr (None, None, res)
  else
    data <~ json_getitem rt res "data" ;;
    aqi <~ json_getitem rt data "aqi" ;;
    data' <~ json_getitem rt res "data" ;;
    city <~ json_getitem rt data' "city" ;;
    geo <~ json_getitem rt city "geo" ;;
    latlon <~ unpack2 rt geo ;;
    n <~ py_int rt aqi ;;
    x <~ py_float rt (fst latlon) ;;
    y <~ py_float rt (snd latlon) ;;
    inr (Some n, Some (x, y), res).

(** [WAQI_TOKEN] is the module-level result of [_get_token()].  The
    ten-minute cache of the function is not modelled: the network is one
    snapshot, a function of the URL. *)
Definition get_live_aqi (rt : Runtime) (WAQI_TOKEN : option string)
    (city : string) : LiveAqi :=
  match WAQI_TOKEN with
  | Some token =>
      if String.eqb token "" then (None, None, JDict [])
      else
        let url := "https://api.waqi.info/feed/" ++ city ++ "/?token=" ++ token in
        match fetch_live_aqi rt url with
        | inr r => r
        | inl e => (None, None, JDict [("error", JStr (str_of_exn rt e))])
        end
  | None => (None, None, JDict [])
  end.

(** A row of the data frame of [get_ncr_points]. *)
Record Row : Type := { City : string; AQI : Z; lat : R; lon : R }.

Definition get_ncr_points (rt : Runtime) (WAQI_TOKEN : option string)
    : list Row :=
  let cities := ["Delhi"; "Noida"; "Gurgaon"; "Ghaziabad"; "Faridabad"] in
  fold_left
    (fun rows c =>
       let '(aqi, geo, _) := get_live_aqi rt WAQI_TOKEN c in
       match aqi, geo with
       | Some a, Some g =>
           (rows ++ [{| City := c; AQI := a; lat := fst g; lon := snd g |}])%list
       | _, _ => rows
       end)
    cities [].

(** A runtime for the examples: exceptions are their text, [int] and
    [float] convert the JSON numbers, and the network answers one URL with
    a reading of 187 for Delhi and fails on every other. *)
Fixpoint chars_of (s : string) : list string :=
  match s with
  | EmptyString => []
  | String c s' => String c EmptyString :: chars_of s'
  end.

Definition example_response : json :=
  JDict [ ("status", JStr "ok");
          ("data", JDict [ ("aqi", JInt 187);
                           ("city", JDict [ ("geo", JList [JFloat 28.6; JFloat 77.2]) ]) ]) ].

Definition example_runtime : Runtime :=
  {| exn := string;
     str_of_exn := fun e => e;
     KeyError := fun k => "'" ++ k ++ "'";
     TypeError := "TypeError";
     AttributeError := "AttributeError";
     ValueError := "ValueError";
     py_int := fun x => match x with
                        | JInt n => inr n
                        | JBool b => inr (if b then 1%Z else 0%Z)
                        | _ => inl "int"
                        end;
     py_float := fun x => match x with
                          | JFloat r => inr r
                          | JInt n => inr (IZR n)
                          | _ => inl "float"
                          end;
     str_chars := chars_of;
     requests_get_json := fun url =>
       if String.eqb url "https://api.waqi.info/feed/Delhi/?token=demo"
       then inr example_response
       else inl "ConnectionError" |}.

(** The rows that one city adds to the data frame, and whether it has a
    reading. *)
Definition rows_of_city (rt : Runtime) (WAQI_TOKEN : option string)
    (c : string) : list Row :=
  match get_live_aqi rt WAQI_TOKEN c with
  | (Some a, Some g, _) => [{| City := c; AQI := a; lat := fst g; lon := snd g |}]
  | _ => []
  end.

Definition has_reading (rt : Runtime) (WAQI_TOKEN : option string)
    (c : string) : bool :=
  match get_live_aqi rt WAQI_TOKEN c with
  | (Some _, _, _) => true
  | _ => false
  end.

(** ** FORECAST page and the cards of the policy simulator *)

(** [int(x)] on a float: truncation towards zero. *)
Definition int_of_float (x : R) : Z :=
  if Rle_dec 0 x then Int_part x else (- Int_part (- x))%Z.

Definition days : list string := ["Tomorrow"; "Day After"; "In 3 Days"].

(** [colors = [health_advisory(val)[4] for val in fc]], the bar colours. *)
Definition forecast_colors (fc : list R) : list string :=
  map (fun val => color (health_advisory val)) fc.

(** The daily cards: [zip(zip(days, fc), cols)] over the three columns of
    [st.columns(3)]; a card shows the day, [int(aqi)] and the advisory of
    [float(aqi)]. *)
Definition forecast_cards (fc : list R) : list (string * Z * Advisory) :=
  let cols := [0%nat; 1%nat; 2%nat] in
  map (fun dac => let '(day, aqi, _) := dac in
                  (day, int_of_float aqi, health_advisory aqi))
      (combine (combine days fc) cols).

(** The data of the page: the live reading of Delhi anchors the three-step
    forecast of the model.  The plotting calls are not modelled; the bar
    chart takes one value for each of the three days. *)
Definition forecast_page (rt : Runtime) (WAQI_TOKEN : option string)
    (sarimax : Model) : list R * list string * list (string * Z * Advisory) :=
  let '(live_aqi, _, _) := get_live_aqi rt WAQI_TOKEN "Delhi" in
  let fc := calibrated_forecast sarimax (option_map IZR live_aqi) 3 in
  (fc, forecast_colors fc, forecast_cards fc).

(** The two cards under the sliders: [int(baseline)], then [int(improved)]
    with the status and the colour of its advisory. *)
Definition policy_cards (buckets : dict) (t d i p : R) (live : option Z)
    : option (Z * (Z * string * string)) :=
  r <- policy_simulator buckets t d i p live ;;
  let '(improved, adv) := r in
  Some (int_of_float (policy_baseline live),
        (int_of_float improved, status adv, color adv)).

(** ** The same functions on binary64 floats *)

(** The arithmetic of the running program: [float] is the binary64 type of
    the kernel, and [+], [-], [*], [/], [<=?] and [=?] on it round and
    compare as Python's [float] and numpy's [float64] do.  A dict holds
    floats; [assoc] is [d[k]]. *)
Definition dict64 : Type := list (string * float).

Fixpoint assoc_set {A : Type} (d : list (string * A)) (k : string) (v : A)
    : list (string * A) :=
  match d with
  | [] => [(k, v)]
  | (k', v') :: d' =>
      if String.eqb k' k then (k', v) :: d' else (k', v') :: assoc_set d' k v
  end.

(** [dict(pairs)]. *)
Definition assoc_of {A : Type} (pairs : list (string * A)) : list (string * A) :=
  fold_left (fun d kv => assoc_set d (fst kv) (snd kv)) pairs [].

(** [d.get(k, dflt)]. *)
Definition dict64_get (d : dict64) (k : string) (dflt : float) : float :=
  match assoc d k with
  | Some v => v
  | None => dflt
  end.

(** [x / y]: [ZeroDivisionError] when [y == 0] (both zeros compare equal
    to 0, a NaN does not). *)
Definition py_div64 (x y : float) : option float :=
  if PrimFloat.eqb y 0 then None else Some (x / y)%float.

(** [x or y]: [x] unless [x == 0]. *)
Definition py_or64 (x y : float) : float :=
  if PrimFloat.eqb x 0 then y else x.

(** [sum(xs)]. *)
Definition py_sum64 (xs : list float) : float := fold_left PrimFloat.add xs 0%float.

(** [{k: f(v) for k, v in d.items()}] for an [f] that may raise. *)
Fixpoint dict64_mapM (f : float -> option float) (d : dict64) : option dict64 :=
  match d with
  | [] => Some []
  | (k, v) :: d' =>
      v' <- f v ;;
      r <- dict64_mapM f d' ;;
      Some ((k, v') :: r)
  end.

Record Model64 : Type := { forecast64 : nat -> list float }.

(** [calibrated_forecast] (app.py 210-215). *)
Definition calibrated_forecast64 (model : Model64) (live_aqi : option float)
    (steps : nat) : list float :=
  let base := forecast64 model steps in
  match live_aqi, base with
  | None, _ => base
  | Some _, [] => base
  | Some live, b0 :: _ =>
      let shift := (live - b0)%float in
      map (fun v => (v + shift)%float) base
  end.

(** [source_buckets] (app.py 218-227). *)
Definition bucket_sums64 (importance : list float) : dict64 :=
  let m := assoc_of (combine features importance) in
  [ ("Traffic (NO₂ + CO)", (dict64_get m "NO2" 0 + dict64_get m "CO" 0)%float);
    ("Dust & Stubble (PM2.5 + PM10)",
     (dict64_get m "PM2.5" 0 + dict64_get m "PM10" 0)%float);
    ("Industry (SO₂)", dict64_get m "SO2" 0%float);
    ("Photochemical (O₃)", dict64_get m "O3" 0%float) ].

Definition source_buckets64 (importance : list float) : option dict64 :=
  let buckets := bucket_sums64 importance in
  let total := py_or64 (py_sum64 (map snd buckets)) 1 in
  dict64_mapM (fun v => q <- py_div64 v total ;; Some (q * 100)%float) buckets.

(** [health_advisory] (app.py 201-207): the same chain of [<=] tests, which
    are all false on a NaN, and the same six tuples. *)
Definition health_advisory64 (aqi : float) : Advisory :=
  if PrimFloat.leb aqi 50 then tier_good
  else if PrimFloat.leb aqi 100 then tier_satisfactory
  else if PrimFloat.leb aqi 200 then tier_moderate
  else if PrimFloat.leb aqi 300 then tier_poor
  else if PrimFloat.leb aqi 400 then tier_very_poor
  else tier_severe.

(** The impact calculation (app.py 495-499) and the projection (503-504). *)
Definition policy_eff64 (buckets : dict64) (t d i p : float) : option float :=
  let w := map (fun kv => (fst kv, (snd kv / 100)%float)) buckets in
  wt <- assoc w "Traffic (NO₂ + CO)" ;;
  wd <- assoc w "Dust & Stubble (PM2.5 + PM10)" ;;
  wi <- assoc w "Industry (SO₂)" ;;
  wp <- assoc w "Photochemical (O₃)" ;;
  Some (wt * (t / 100) + wd * (d / 100) + wi * (i / 100) + wp * (p / 100))%float.

Definition simulate64 (buckets : dict64) (t d i p : float) (baseline : float)
    : option (float * Advisory) :=
  eff <- policy_eff64 buckets t d i p ;;
  let improved := (baseline * (1 - eff))%float in
  Some (improved, health_advisory64 improved).

Definition buckets64_of (bt bd bi bp : float) : dict64 :=
  [ ("Traffic (NO₂ + CO)", bt);
    ("Dust & Stubble (PM2.5 + PM10)", bd);
    ("Industry (SO₂)", bi);
    ("Photochemical (O₃)", bp) ].

Definition has_buckets64 (buckets : dict64) (bt bd bi bp : float) : Prop :=
  assoc buckets "Traffic (NO₂ + CO)" = Some bt /\
  assoc buckets "Dust & Stubble (PM2.5 + PM10)" = Some bd /\
  assoc buckets "Industry (SO₂)" = Some bi /\
  assoc buckets "Photochemical (O₃)" = Some bp.

(** * Properties *)

(** ** Dictionaries *)

Lemma dict_getitem_setitem (d : dict) (k k' : string) (v : R) :
  dict_getitem (dict_setitem d k v) k' =
  if String.eqb k k' then Some v else dict_getitem d k'.
Proof.
  induction d as [|[k0 v0] d IH]; simpl.
  - reflexivity.
  - destruct (String.eqb k0 k) eqn:E0; simpl.
    + apply String.eqb_eq in E0; subst k0.
      destruct (String.eqb k k'); reflexivity.
    + rewrite IH.
      destruct (String.eqb k0 k') eqn:E1; [|reflexivity].
      apply String.eqb_eq in E1; subst k0.
      rewrite String.eqb_sym, E0. reflexivity.
Qed.

Lemma dict_getitem_map (f : R -> R) (d : dict) (k : string) :
  dict_getitem (dict_map f d) k = option_map f (dict_getitem d k).
Proof.
  induction d as [|[k0 v0] d IH]; simpl.
  - reflexivity.
  - destruct (String.eqb k0 k); [reflexivity | exact IH].
Qed.

(** A comprehension whose body never raises is a plain map. *)
Lemma dict_mapM_total (f : R -> option R) (g : R -> R) (d : dict) :
  (forall v, f v = Some (g v)) -> dict_mapM f d = Some (dict_map g d).
Proof.
  intros Hf. induction d as [|[k v] d IH]; simpl.
  - reflexivity.
  - rewrite Hf; simpl. rewrite IH; reflexivity.
Qed.

Section DictOf.

(** Every value stored by [dict(pairs)] is a value of [pairs]. *)
Variable P : R -> Prop.

Lemma dict_fold_values (pairs : list (string * R)) : forall acc : dict,
  (forall k v, dict_getitem acc k = Some v -> P v) ->
  Forall (fun kv => P (snd kv)) pairs ->
  forall k v,
    dict_getitem
      (fold_left (fun d kv => dict_setitem d (fst kv) (snd kv)) pairs acc) k
    = Some v -> P v.
Proof.
  induction pairs as [|[k0 v0] pairs IH]; intros acc Hacc Hall k v; simpl.
  - apply Hacc.
  - inversion Hall as [|? ? Hv0 Hrest]; subst.
    apply IH; [|exact Hrest].
    intros k1 v1. rewrite dict_getitem_setitem.
    destruct (String.eqb k0 k1).
    + intros [= <-]. exact Hv0.
    + apply Hacc.
Qed.

Lemma combine_values (ks : list string) : forall vs : list R,
  Forall P vs -> Forall (fun kv => P (snd kv)) (combine ks vs).
Proof.
  induction ks as [|k ks IH]; intros [|v vs] H; simpl; try constructor.
  - inversion H; assumption.
  - apply IH. inversion H; assumption.
Qed.

Lemma dict_get_zip (ks : list string) (vs : list R) (k : string) (dflt : R) :
  Forall P vs -> P dflt -> P (dict_get (dict_of (combine ks vs)) k dflt).
Proof.
  intros Hvs Hd. unfold dict_get.
  destruct (dict_getitem (dict_of (combine ks vs)) k) as [v|] eqn:E.
  - revert E. unfold dict_of. apply dict_fold_values.
    + intros ? ? [=].
    + now apply combine_values.
  - exact Hd.
Qed.

End DictOf.

(** ** Health advisory *)

Ltac advisory_cases :=
  unfold health_advisory, aqi_hex;
  repeat match goal with
         | |- context [Rle_dec ?x ?y] => destruct (Rle_dec x y)
         end.

Lemma tiers_distinct : NoDup tiers.
Proof.
  unfold tiers.
  repeat (constructor; [simpl; intuition discriminate|]).
  constructor.
Qed.

(** C1.  [health_advisory] is a function of every real [aqi] (so total and
    deterministic) and returns exactly one of the six tiers, which are
    pairwise distinct: [tier_good] on (-inf,50], [tier_satisfactory] on
    (50,100], [tier_moderate] on (100,200], [tier_poor] on (200,300],
    [tier_very_poor] on (300,400] and the terminal [tier_severe] on
    (400,+inf).  The boundary values 50, 100, 200, 300 and 400 get the lower
    of the two adjacent tiers. *)
Theorem C1_health_advisory_partition :
  (List.length tiers = 6%nat /\ NoDup tiers) /\
  (forall aqi : R,
     (exists! t, In t tiers /\ health_advisory aqi = t) /\
     (aqi <= 50 -> health_advisory aqi = tier_good) /\
     (50 < aqi <= 100 -> health_advisory aqi = tier_satisfactory) /\
     (100 < aqi <= 200 -> health_advisory aqi = tier_moderate) /\
     (200 < aqi <= 300 -> health_advisory aqi = tier_poor) /\
     (300 < aqi <= 400 -> health_advisory aqi = tier_very_poor) /\
     (400 < aqi -> health_advisory aqi = tier_severe)) /\
  (health_advisory 50 = tier_good /\
   health_advisory 100 = tier_satisfactory /\
   health_advisory 200 = tier_moderate /\
   health_advisory 300 = tier_poor /\
   health_advisory 400 = tier_very_poor).
Proof.
  split; [split; [reflexivity | exact tiers_distinct]|].
  split.
  - intros aqi. split.
    + exists (health_advisory aqi). split.
      * split; [|reflexivity].
        advisory_cases; simpl; tauto.
      * intros t [_ Ht]. exact Ht.
    + repeat split; intros H; advisory_cases; solve [reflexivity | lra].
  - repeat split; advisory_cases; solve [reflexivity | lra].
Qed.

(** C7, as the code has it.  The status labels carry an emoji: for every
    [aqi <= 50] (negative values included) the status is the string
    "Good 🌱", and for every [aqi > 400] it is "Severe ☠️"; both begin with
    the bare tier name. *)
Theorem C7_status_labels : forall aqi : R,
  (aqi <= 50 ->
     status (health_advisory aqi) = "Good 🌱" /\
     String.prefix "Good" (status (health_advisory aqi)) = true) /\
  (400 < aqi ->
     status (health_advisory aqi) = "Severe ☠️" /\
     String.prefix "Severe" (status (health_advisory aqi)) = true).
Proof.
  intros aqi. split; intros H; advisory_cases;
    solve [split; reflexivity | lra].
Qed.

(** A negative reading is "Good 🌱", a reading of 500 is "Severe ☠️". *)
Lemma C7_status_labels_examples :
  status (health_advisory (-5)) = "Good 🌱" /\
  status (health_advisory 500) = "Severe ☠️".
Proof.
  split.
  - apply (C7_status_labels (-5)). lra.
  - apply (C7_status_labels 500). lra.
Defined.

(** C7, as stated, fails: at [aqi = 0] the status is not the string "Good",
    and at [aqi = 401] it is not the string "Severe". *)
Lemma C7_status_not_bare_name :
  0 <= 50 /\ status (health_advisory 0) <> "Good" /\
  400 < 401 /\ status (health_advisory 401) <> "Severe".
Proof.
  repeat split; try lra; advisory_cases; try lra; simpl; discriminate.
Qed.

(** C10.  The colour lookup of the Live Map page agrees with the advisory
    table: [aqi_hex aqi] is the fifth component of [health_advisory aqi],
    for every real [aqi]. *)
Theorem C10_aqi_hex_agrees : forall aqi : R,
  aqi_hex aqi = color (health_advisory aqi).
Proof.
  intros aqi. advisory_cases; reflexivity.
Qed.

(** ** Forecast calibration *)

Section Calibration.

Variable model : Model.
Variable steps : nat.

Let raw : list R := forecast model steps.

(** With a live reading and a non-empty forecast, the result is the raw
    forecast shifted by [live - raw[0]]. *)
Lemma calibrated_forecast_shift (live : R) :
  raw <> [] ->
  calibrated_forecast model (Some live) steps =
  map (fun v => v + (live - nth 0 raw 0)) raw.
Proof.
  unfold calibrated_forecast. fold raw.
  destruct raw as [|b0 bs]; [congruence | reflexivity].
Qed.

Lemma nth_shift (s : R) (l : list R) (i : nat) :
  (i < List.length l)%nat ->
  nth i (map (fun v => v + s) l) 0 = nth i l 0 + s.
Proof.
  intros Hi.
  rewrite (nth_indep _ 0 (0 + s)) by (rewrite length_map; exact Hi).
  apply (map_nth (fun v => v + s)).
Qed.

End Calibration.

(** Exact arithmetic.  For a non-empty raw forecast [raw] and a present
    live index [live], the result is [v + shift] for every [v] of [raw],
    with [shift = live - raw[0]]: it is as long as the input, its first
    element is [live], and every consecutive difference of [raw] is kept. *)
Lemma calibrated_forecast_exact :
  forall (model : Model) (steps : nat) (live : R),
    let raw := forecast model steps in
    let out := calibrated_forecast model (Some live) steps in
    raw <> [] ->
    out = map (fun v => v + (live - nth 0 raw 0)) raw /\
    List.length out = List.length raw /\
    nth 0 out 0 = live /\
    (forall i : nat, (S i < List.length raw)%nat ->
       nth (S i) out 0 - nth i out 0 = nth (S i) raw 0 - nth i raw 0).
Proof.
  intros model steps live raw out Hne.
  assert (Hout : out = map (fun v => v + (live - nth 0 raw 0)) raw)
    by (apply calibrated_forecast_shift; exact Hne).
  split; [exact Hout|]. rewrite Hout.
  split; [apply length_map|].
  split.
  - rewrite nth_shift; [lra|].
    destruct raw; [congruence | simpl; apply Nat.lt_0_succ].
  - intros i Hi.
    rewrite !nth_shift; [lra | | exact Hi].
    apply Nat.lt_trans with (S i); [apply Nat.lt_succ_diag_r | exact Hi].
Qed.

(** C6.  Calibration is the identity in both degenerate cases: with no live
    reading the raw forecast is returned as it is, and an empty raw forecast
    is returned (empty) whatever the live reading. *)
Theorem C6_calibrated_forecast_identity :
  forall (model : Model) (steps : nat),
    calibrated_forecast model None steps = forecast model steps /\
    (forall live : option R,
       forecast model steps = [] ->
       calibrated_forecast model live steps = [] /\
       calibrated_forecast model live steps = forecast model steps).
Proof.
  intros model steps. split; [reflexivity|].
  intros live Hraw. unfold calibrated_forecast. rewrite Hraw.
  destruct live; split; reflexivity.
Qed.

(** An empty forecast stays empty under a live reading of 130, and a
    forecast stays as it is without a live reading. *)
Lemma C6_calibrated_forecast_examples :
  calibrated_forecast {| forecast := fun _ => [] |} (Some 130) 3 = [] /\
  calibrated_forecast {| forecast := fun _ => [180; 175; 190] |} None 3 =
    [180; 175; 190].
Proof.
  split.
  - apply (proj2 (C6_calibrated_forecast_identity
                    {| forecast := fun _ => [] |} 3) (Some 130)).
    reflexivity.
  - exact (proj1 (C6_calibrated_forecast_identity
                    {| forecast := fun _ => [180; 175; 190] |} 3)).
Defined.

(** ** Source attribution *)

Lemma py_or_nonzero (x : R) : py_or x 1 <> 0.
Proof.
  unfold py_or. destruct (Req_dec_T x 0); [lra | assumption].
Qed.

Lemma py_div_nonzero (x y : R) : y <> 0 -> py_div x y = Some (x / y).
Proof.
  intros Hy. unfold py_div. destruct (Req_dec_T y 0); [contradiction | reflexivity].
Qed.

(** The divisor of [source_buckets] is never zero, so the comprehension
    never raises: the result is the raw sums, each divided by the guarded
    total and multiplied by 100. *)
Lemma source_buckets_normalised (importance : list R) :
  let buckets := bucket_sums importance in
  let total := py_or (py_sum (dict_values buckets)) 1 in
  source_buckets importance = Some (dict_map (fun v => v / total * 100) buckets).
Proof.
  intros buckets total. unfold source_buckets. fold buckets. fold total.
  apply dict_mapM_total. intros v.
  rewrite py_div_nonzero by apply py_or_nonzero. reflexivity.
Qed.

(** The raw sums of a full six-entry importance vector. *)
Lemma bucket_sums_six (pm25 pm10 no2 so2 co o3 : R) :
  bucket_sums [pm25; pm10; no2; so2; co; o3] =
  buckets_of (no2 + co) (pm25 + pm10) so2 o3.
Proof. reflexivity. Qed.

Lemma div_total_nonneg (v total : R) : 0 <= v -> 0 < total -> 0 <= v / total * 100.
Proof.
  intros Hv Ht.
  assert (0 < / total) by (apply Rinv_0_lt_compat; exact Ht).
  unfold Rdiv. nra.
Qed.

(** Exact arithmetic.  For every vector of non-negative importance weights
    (of any length: [zip] stops at the shorter argument and a missing
    pollutant counts 0), [source_buckets] does not raise and returns the
    four buckets, in their insertion order, with non-negative percentages;
    when the total of the four raw sums is positive the percentages sum to
    100, and when every weight is zero every percentage is 0. *)
Lemma source_buckets_exact :
  forall importance : list R,
    Forall (fun x => 0 <= x) importance ->
    exists out : dict,
      source_buckets importance = Some out /\
      dict_keys out = dict_keys (buckets_of 0 0 0 0) /\
      Forall (fun x => 0 <= x) (dict_values out) /\
      (0 < py_sum (dict_values (bucket_sums importance)) ->
         py_sum (dict_values out) = 100) /\
      (Forall (fun x => x = 0) importance ->
         out = buckets_of 0 0 0 0).
Proof.
  intros importance Hpos.
  eexists. split; [apply source_buckets_normalised|].
  unfold bucket_sums.
  set (m := dict_of (combine features importance)).
  assert (Hget : forall k, 0 <= dict_get m k 0)
    by (intros k; apply (dict_get_zip (fun x => 0 <= x)); [exact Hpos | lra]).
  pose proof (Hget "NO2") as Hno2. pose proof (Hget "CO") as Hco.
  pose proof (Hget "PM2.5") as Hpm25. pose proof (Hget "PM10") as Hpm10.
  pose proof (Hget "SO2") as Hso2. pose proof (Hget "O3") as Ho3.
  set (no2 := dict_get m "NO2" 0) in *. set (co := dict_get m "CO" 0) in *.
  set (pm25 := dict_get m "PM2.5" 0) in *. set (pm10 := dict_get m "PM10" 0) in *.
  set (so2 := dict_get m "SO2" 0) in *. set (o3 := dict_get m "O3" 0) in *.
  unfold dict_values, dict_keys, dict_map, py_sum, buckets_of; simpl.
  set (sum := 0 + (no2 + co) + (pm25 + pm10) + so2 + o3).
  assert (Hsum : 0 <= sum) by (unfold sum; lra).
  assert (Htot : 0 < py_or sum 1).
  { unfold py_or. destruct (Req_dec_T sum 0); lra. }
  split; [reflexivity|].
  split; [|split].
  - repeat (apply Forall_cons;
              [apply div_total_nonneg; solve [exact Htot | lra]|]).
    apply Forall_nil.
  - intros Hsum_pos.
    unfold py_or. destruct (Req_dec_T sum 0) as [Hz|Hnz]; [lra|].
    unfold sum in *. field. lra.
  - intros Hzero.
    assert (Hget0 : forall k, dict_get m k 0 = 0)
      by (intros k; apply (dict_get_zip (fun x => x = 0)); [exact Hzero | reflexivity]).
    unfold sum, no2, co, pm25, pm10, so2, o3. rewrite !Hget0.
    replace (0 + (0 + 0) + (0 + 0) + 0 + 0) with 0 by lra.
    unfold py_or. destruct (Req_dec_T 0 0) as [_|Hnz]; [|contradiction].
    repeat (f_equal; try lra).
Qed.

(** [source_buckets] on a full six-entry vector, whatever the total. *)
Lemma source_buckets_six (pm25 pm10 no2 so2 co o3 : R) :
  let total := py_or ((no2 + co) + (pm25 + pm10) + so2 + o3) 1 in
  source_buckets [pm25; pm10; no2; so2; co; o3] =
    Some (buckets_of ((no2 + co) / total * 100)
                     ((pm25 + pm10) / total * 100)
                     (so2 / total * 100)
                     (o3 / total * 100)).
Proof.
  intros total.
  rewrite source_buckets_normalised, bucket_sums_six.
  unfold buckets_of, dict_values, dict_map, py_sum; simpl.
  replace (0 + (no2 + co) + (pm25 + pm10) + so2 + o3)
    with ((no2 + co) + (pm25 + pm10) + so2 + o3) by lra.
  reflexivity.
Qed.

(** C5.  On a six-entry importance vector the raw buckets are
    Traffic = NO2 + CO, Dust & Stubble = PM2.5 + PM10, Industry = SO2 and
    Photochemical = O3, and each percentage is its raw sum divided by the
    total of the four raw sums and multiplied by 100.  (When that total is
    zero there is nothing to divide by: the code divides by 1 instead.) *)
Theorem C5_source_buckets_linear :
  forall pm25 pm10 no2 so2 co o3 : R,
    let total := (no2 + co) + (pm25 + pm10) + so2 + o3 in
    bucket_sums [pm25; pm10; no2; so2; co; o3] =
      buckets_of (no2 + co) (pm25 + pm10) so2 o3 /\
    (total <> 0 ->
     source_buckets [pm25; pm10; no2; so2; co; o3] =
       Some (buckets_of ((no2 + co) / total * 100)
                        ((pm25 + pm10) / total * 100)
                        (so2 / total * 100)
                        (o3 / total * 100))) /\
    (total = 0 ->
     source_buckets [pm25; pm10; no2; so2; co; o3] =
       Some (buckets_of ((no2 + co) / 1 * 100)
                        ((pm25 + pm10) / 1 * 100)
                        (so2 / 1 * 100)
                        (o3 / 1 * 100))).
Proof.
  intros pm25 pm10 no2 so2 co o3 total.
  split; [apply bucket_sums_six|].
  split; intros Htotal; rewrite source_buckets_six; fold total;
    unfold py_or; destruct (Req_dec_T total 0); solve [reflexivity | contradiction].
Qed.

(** The example of the specification: 25%, 50%, 12.5% and 12.5%, which
    sum to 100. *)
Lemma C5_source_buckets_example :
  source_buckets [10; 10; 5; 5; 5; 5] = Some (buckets_of 25 50 12.5 12.5) /\
  py_sum [25; 50; 12.5; 12.5] = 100.
Proof.
  split.
  - destruct (C5_source_buckets_linear 10 10 5 5 5 5) as (_ & Hout & _).
    rewrite Hout by lra.
    unfold buckets_of. repeat (f_equal; try lra).
  - unfold py_sum; simpl; lra.
Defined.

(** ** Policy simulator *)

Lemma has_buckets_of (bt bd bi bp : R) :
  has_buckets (buckets_of bt bd bi bp) bt bd bi bp.
Proof. repeat split. Qed.

(** With the four buckets present no lookup raises, and the blended
    effectiveness is the weighted sum of the four reductions. *)
Lemma policy_eff_value (buckets : dict) (bt bd bi bp t d i p : R) :
  has_buckets buckets bt bd bi bp ->
  policy_eff buckets t d i p =
  Some (bt / 100 * (t / 100) + bd / 100 * (d / 100) +
        bi / 100 * (i / 100) + bp / 100 * (p / 100)).
Proof.
  intros (Ht & Hd & Hi & Hp). unfold policy_eff.
  rewrite !dict_getitem_map, Ht, Hd, Hi, Hp. reflexivity.
Qed.

Lemma simulate_value (buckets : dict) (t d i p baseline eff : R) :
  policy_eff buckets t d i p = Some eff ->
  simulate buckets t d i p baseline =
  Some (baseline * (1 - eff), health_advisory (baseline * (1 - eff))).
Proof.
  intros Heff. unfold simulate. rewrite Heff. reflexivity.
Qed.

(** A weighted average of reductions of at most 60% is at most 60%. *)
Lemma eff_range (bt bd bi bp t d i p : R) :
  bt + bd + bi + bp = 100 ->
  0 <= bt -> 0 <= bd -> 0 <= bi -> 0 <= bp ->
  0 <= t <= 60 -> 0 <= d <= 60 -> 0 <= i <= 60 -> 0 <= p <= 60 ->
  0 <= bt / 100 * (t / 100) + bd / 100 * (d / 100) +
       bi / 100 * (i / 100) + bp / 100 * (p / 100) <= 0.6.
Proof. intros; nra. Qed.

(** Exact arithmetic.  With bucket percentages that sum to 100, the
    simulator returns [baseline * (1 - eff)]; for a baseline >= 0,
    non-negative percentages and levers in [0, 60], [eff] lies in [0, 0.6]
    and the projected index in [0.4 * baseline, baseline]; with all four
    levers at 60 the projected index is 0.4 * baseline. *)
Lemma simulate_exact_bounds :
  forall (buckets : dict) (bt bd bi bp baseline : R),
    has_buckets buckets bt bd bi bp ->
    bt + bd + bi + bp = 100 ->
    (forall t d i p : R,
       0 <= baseline ->
       0 <= bt -> 0 <= bd -> 0 <= bi -> 0 <= bp ->
       0 <= t <= 60 -> 0 <= d <= 60 -> 0 <= i <= 60 -> 0 <= p <= 60 ->
       exists eff : R,
         policy_eff buckets t d i p = Some eff /\
         0 <= eff <= 0.6 /\
         simulate buckets t d i p baseline =
           Some (baseline * (1 - eff), health_advisory (baseline * (1 - eff))) /\
         0.4 * baseline <= baseline * (1 - eff) <= baseline) /\
    simulate buckets 60 60 60 60 baseline =
      Some (0.4 * baseline, health_advisory (0.4 * baseline)).
Proof.
  intros buckets bt bd bi bp baseline Hb Hsum. split.
  - intros t d i p Hbase Hbt Hbd Hbi Hbp Ht Hd Hi Hp.
    eexists. split; [apply (policy_eff_value _ _ _ _ _ _ _ _ _ Hb)|].
    set (eff := bt / 100 * (t / 100) + bd / 100 * (d / 100) +
                bi / 100 * (i / 100) + bp / 100 * (p / 100)).
    assert (Heff : 0 <= eff <= 0.6) by (apply eff_range; assumption).
    split; [exact Heff|].
    split; [apply simulate_value, (policy_eff_value _ _ _ _ _ _ _ _ _ Hb)|].
    nra.
  - rewrite (simulate_value _ _ _ _ _ _ _ (policy_eff_value _ _ _ _ _ 60 60 60 60 Hb)).
    replace (bt / 100 * (60 / 100) + bd / 100 * (60 / 100) +
             bi / 100 * (60 / 100) + bp / 100 * (60 / 100)) with 0.6 by lra.
    replace (baseline * (1 - 0.6)) with (0.4 * baseline) by lra.
    reflexivity.
Qed.

(** C8.  With the four levers at 0 the projected index is the baseline
    itself, for every baseline and every bucket percentages (summing to 100
    or not, all zero included). *)
Theorem C8_simulate_no_levers :
  forall (buckets : dict) (bt bd bi bp baseline : R),
    has_buckets buckets bt bd bi bp ->
    simulate buckets 0 0 0 0 baseline =
      Some (baseline, health_advisory baseline).
Proof.
  intros buckets bt bd bi bp baseline Hb.
  rewrite (simulate_value _ _ _ _ _ _ _ (policy_eff_value _ _ _ _ _ 0 0 0 0 Hb)).
  replace (baseline * (1 - _)) with baseline by field.
  reflexivity.
Qed.

(** The degenerate all-zero buckets, with a baseline of 300. *)
Lemma C8_simulate_no_levers_all_zero :
  has_buckets (buckets_of 0 0 0 0) 0 0 0 0 /\
  simulate (buckets_of 0 0 0 0) 0 0 0 0 300 = Some (300, health_advisory 300).
Proof.
  split; [apply has_buckets_of|].
  exact (C8_simulate_no_levers _ _ _ _ _ 300 (has_buckets_of 0 0 0 0)).
Defined.

(** C9.  Without a live reading the baseline selection does not fail: it
    yields 200, and the page's simulator is the simulator at baseline 200,
    for every buckets and levers. *)
Theorem C9_baseline_fallback :
  policy_baseline None = 200 /\
  (forall (buckets : dict) (t d i p : R),
     policy_simulator buckets t d i p None = simulate buckets t d i p 200) /\
  (forall (buckets : dict) (t d i p : R) (live : Z),
     policy_simulator buckets t d i p (Some live) =
     simulate buckets t d i p (IZR live)).
Proof.
  repeat split.
Qed.

(** * Further properties of the code *)

(** ** Severity is monotone in the index *)

Lemma tier_rank_mono (a b : R) :
  a <= b ->
  (tier_rank (health_advisory a) <= tier_rank (health_advisory b))%nat.
Proof.
  intros Hab. advisory_cases; try lra; vm_compute; repeat constructor.
Qed.

Lemma tier_rank_table (aqi : R) :
  (tier_rank (health_advisory aqi) <= 5)%nat /\
  nth (tier_rank (health_advisory aqi)) tiers tier_severe = health_advisory aqi.
Proof.
  advisory_cases; split; solve [reflexivity | vm_compute; repeat constructor].
Qed.

(** X1.  A higher index never gets a milder advisory: the position of
    [health_advisory aqi] in the table (Good, Satisfactory, Moderate, Poor,
    Very Poor, Severe) is non-decreasing in [aqi]; it is at most 5 and the
    table entry at that position is the advisory itself. *)
Theorem X1_health_advisory_monotone : forall a b : R,
  a <= b ->
  (tier_rank (health_advisory a) <= tier_rank (health_advisory b) <= 5)%nat /\
  nth (tier_rank (health_advisory a)) tiers tier_severe = health_advisory a.
Proof.
  intros a b Hab. split; [split|].
  - apply tier_rank_mono; exact Hab.
  - apply tier_rank_table.
  - apply tier_rank_table.
Qed.

Lemma X1_health_advisory_monotone_example :
  (tier_rank (health_advisory 120) <= tier_rank (health_advisory 350) <= 5)%nat /\
  tier_rank (health_advisory 120) = 2%nat /\
  tier_rank (health_advisory 350) = 4%nat.
Proof.
  split; [apply (X1_health_advisory_monotone 120 350); lra|].
  split; advisory_cases; solve [reflexivity | lra].
Defined.

(** ** The simulator is monotone *)

Lemma eff_mono (bt bd bi bp t d i p t' d' i' p' : R) :
  0 <= bt -> 0 <= bd -> 0 <= bi -> 0 <= bp ->
  t <= t' -> d <= d' -> i <= i' -> p <= p' ->
  bt / 100 * (t / 100) + bd / 100 * (d / 100) +
  bi / 100 * (i / 100) + bp / 100 * (p / 100) <=
  bt / 100 * (t' / 100) + bd / 100 * (d' / 100) +
  bi / 100 * (i' / 100) + bp / 100 * (p' / 100).
Proof. intros; nra. Qed.

(** X2.  Pushing a lever further never raises the projection: with
    non-negative bucket percentages and a non-negative baseline, levers that
    are pointwise larger give a projected index that is no larger, and an
    advisory that is no more severe. *)
Theorem X2_simulate_monotone :
  forall (buckets : dict) (bt bd bi bp t d i p t' d' i' p' baseline : R),
    has_buckets buckets bt bd bi bp ->
    0 <= bt -> 0 <= bd -> 0 <= bi -> 0 <= bp ->
    0 <= baseline ->
    t <= t' -> d <= d' -> i <= i' -> p <= p' ->
    exists x x' : R,
      simulate buckets t d i p baseline = Some (x, health_advisory x) /\
      simulate buckets t' d' i' p' baseline = Some (x', health_advisory x') /\
      x' <= x /\
      (tier_rank (health_advisory x') <= tier_rank (health_advisory x))%nat.
Proof.
  intros buckets bt bd bi bp t d i p t' d' i' p' baseline
         Hb Hbt Hbd Hbi Hbp Hbase Ht Hd Hi Hp.
  pose proof (eff_mono bt bd bi bp t d i p t' d' i' p'
                Hbt Hbd Hbi Hbp Ht Hd Hi Hp) as Heff.
  do 2 eexists.
  split; [apply simulate_value, (policy_eff_value _ _ _ _ _ t d i p Hb)|].
  split; [apply simulate_value, (policy_eff_value _ _ _ _ _ t' d' i' p' Hb)|].
  assert (Hle : baseline * (1 - (bt / 100 * (t' / 100) + bd / 100 * (d' / 100) +
                                 bi / 100 * (i' / 100) + bp / 100 * (p' / 100)))
                <= baseline * (1 - (bt / 100 * (t / 100) + bd / 100 * (d / 100) +
                                    bi / 100 * (i / 100) + bp / 100 * (p / 100))))
    by nra.
  split; [exact Hle | apply tier_rank_mono; exact Hle].
Qed.

(** The sliders' defaults against a stronger traffic measure, on the
    example buckets and a baseline of 300. *)
Lemma X2_simulate_monotone_example :
  exists x x' : R,
    simulate (buckets_of 25 50 12.5 12.5) 20 15 10 5 300 =
      Some (x, health_advisory x) /\
    simulate (buckets_of 25 50 12.5 12.5) 60 15 10 5 300 =
      Some (x', health_advisory x') /\
    x' <= x.
Proof.
  destruct (X2_simulate_monotone (buckets_of 25 50 12.5 12.5) 25 50 12.5 12.5
              20 15 10 5 60 15 10 5 300 (has_buckets_of _ _ _ _))
    as (x & x' & H1 & H2 & Hle & _); try lra.
  exists x, x'. split; [exact H1|]. split; [exact H2 | exact Hle].
Defined.

(** X3.  The simulator never projects a deterioration: with non-negative
    bucket percentages, non-negative levers and a non-negative baseline the
    projected index is at most the baseline and its advisory is at most as
    severe as the baseline's. *)
Theorem X3_simulate_never_worse :
  forall (buckets : dict) (bt bd bi bp t d i p baseline : R),
    has_buckets buckets bt bd bi bp ->
    0 <= bt -> 0 <= bd -> 0 <= bi -> 0 <= bp ->
    0 <= t -> 0 <= d -> 0 <= i -> 0 <= p ->
    0 <= baseline ->
    exists x : R,
      simulate buckets t d i p baseline = Some (x, health_advisory x) /\
      x <= baseline /\
      (tier_rank (health_advisory x) <= tier_rank (health_advisory baseline))%nat.
Proof.
  intros buckets bt bd bi bp t d i p baseline
         Hb Hbt Hbd Hbi Hbp Ht Hd Hi Hp Hbase.
  eexists.
  split; [apply simulate_value, (policy_eff_value _ _ _ _ _ t d i p Hb)|].
  assert (Hle : baseline * (1 - (bt / 100 * (t / 100) + bd / 100 * (d / 100) +
                                 bi / 100 * (i / 100) + bp / 100 * (p / 100)))
                <= baseline).
  { pose proof (eff_mono bt bd bi bp 0 0 0 0 t d i p
                  Hbt Hbd Hbi Hbp Ht Hd Hi Hp) as Heff.
    nra. }
  split; [exact Hle | apply tier_rank_mono; exact Hle].
Qed.

Lemma X3_simulate_never_worse_example :
  exists x : R,
    simulate (buckets_of 25 50 12.5 12.5) 20 15 10 5 200 =
      Some (x, health_advisory x) /\
    x <= 200 /\
    (tier_rank (health_advisory x) <= tier_rank (health_advisory 200))%nat.
Proof.
  apply (X3_simulate_never_worse (buckets_of 25 50 12.5 12.5) 25 50 12.5 12.5
           20 15 10 5 200 (has_buckets_of _ _ _ _)); lra.
Defined.

(** ** More on source attribution *)

Lemma div_total_le (v total : R) : 0 <= v <= total -> 0 < total -> v / total * 100 <= 100.
Proof.
  intros Hv Ht.
  assert (v / total <= 1).
  { apply Rmult_le_reg_r with total; [exact Ht|].
    unfold Rdiv. rewrite Rmult_assoc, Rinv_l by lra. lra. }
  lra.
Qed.

(** X4.  No bucket is credited with more than the whole: for non-negative
    importance weights every percentage of [source_buckets] lies between 0
    and 100. *)
Theorem X4_source_buckets_range :
  forall importance : list R,
    Forall (fun x => 0 <= x) importance ->
    exists out : dict,
      source_buckets importance = Some out /\
      Forall (fun x => 0 <= x <= 100) (dict_values out).
Proof.
  intros importance Hpos.
  eexists. split; [apply source_buckets_normalised|].
  unfold bucket_sums.
  set (m := dict_of (combine features importance)).
  assert (Hget : forall k, 0 <= dict_get m k 0)
    by (intros k; apply (dict_get_zip (fun x => 0 <= x)); [exact Hpos | lra]).
  pose proof (Hget "NO2") as Hno2. pose proof (Hget "CO") as Hco.
  pose proof (Hget "PM2.5") as Hpm25. pose proof (Hget "PM10") as Hpm10.
  pose proof (Hget "SO2") as Hso2. pose proof (Hget "O3") as Ho3.
  set (no2 := dict_get m "NO2" 0) in *. set (co := dict_get m "CO" 0) in *.
  set (pm25 := dict_get m "PM2.5" 0) in *. set (pm10 := dict_get m "PM10" 0) in *.
  set (so2 := dict_get m "SO2" 0) in *. set (o3 := dict_get m "O3" 0) in *.
  unfold dict_values, dict_map, py_sum; simpl.
  set (sum := 0 + (no2 + co) + (pm25 + pm10) + so2 + o3).
  assert (Hsum : sum = (no2 + co) + (pm25 + pm10) + so2 + o3)
    by (unfold sum; lra).
  unfold py_or. destruct (Req_dec_T sum 0) as [Hz|Hnz].
  - assert (no2 + co = 0 /\ pm25 + pm10 = 0 /\ so2 = 0 /\ o3 = 0)
      as (-> & -> & -> & ->) by lra.
    repeat (apply Forall_cons; [lra|]). apply Forall_nil.
  - assert (Htot : 0 < sum) by lra.
    repeat (apply Forall_cons;
              [split; [apply div_total_nonneg | apply div_total_le]; lra|]).
    apply Forall_nil.
Qed.

Lemma X4_source_buckets_range_example :
  exists out : dict,
    source_buckets [0.3; 0.25; 0.2; 0.05; 0.15; 0.05] = Some out /\
    Forall (fun x => 0 <= x <= 100) (dict_values out).
Proof.
  apply X4_source_buckets_range.
  repeat (apply Forall_cons; [lra|]). apply Forall_nil.
Defined.

Lemma bucket_sums_pad (importance : list R) :
  bucket_sums importance = bucket_sums (firstn 6 (importance ++ repeat 0 6)).
Proof.
  destruct importance as [|a [|b [|c [|d [|e [|f rest]]]]]]; reflexivity.
Qed.

(** X6.  [source_buckets] reads at most six weights, in the order of
    [features]: entries beyond the sixth are ignored and a missing entry
    counts as 0, so any importance vector gives the result of its first six
    entries padded with zeros. *)
Theorem X6_source_buckets_six_entries :
  forall importance : list R,
    source_buckets importance =
    source_buckets (firstn 6 (importance ++ repeat 0 6)) /\
    (forall rest : list R,
       source_buckets (firstn 6 (importance ++ repeat 0 6) ++ rest) =
       source_buckets importance).
Proof.
  intros importance.
  assert (Hsb : forall l l', bucket_sums l = bucket_sums l' ->
                             source_buckets l = source_buckets l')
    by (intros l l' H; unfold source_buckets; rewrite H; reflexivity).
  split.
  - apply Hsb, bucket_sums_pad.
  - intros rest. apply Hsb.
    rewrite (bucket_sums_pad importance).
    destruct importance as [|a [|b [|c [|d [|e [|f tl]]]]]]; reflexivity.
Qed.

(** ** More on forecast calibration *)

Lemma calibrated_forecast_anchored (model : Model) (steps : nat) (live : R) :
  nth 0 (forecast model steps) live = live ->
  calibrated_forecast model (Some live) steps = forecast model steps.
Proof.
  unfold calibrated_forecast.
  destruct (forecast model steps) as [|b0 bs]; [reflexivity|].
  simpl nth. intros ->.
  rewrite <- (map_id (live :: bs)) at 2.
  apply map_ext. intros v. lra.
Qed.




(** ** Token lookup *)

(** X10.  A usable (non-empty) token is found exactly when the secrets
    store or the environment holds one; a non-empty secret is returned
    whatever the environment holds, and a failing, unset or empty secret
    makes the result the environment's value. *)
Theorem X10_get_token_precedence :
  forall (secrets : option (option string)) (env : option string),
    let secret := match secrets with Some v => v | None => None end in
    (truthy (_get_token secrets env) = true <->
       truthy secret = true \/ truthy env = true) /\
    (truthy secret = true -> _get_token secrets env = secret) /\
    (truthy secret = false -> _get_token secrets env = env).
Proof.
  intros secrets env secret. unfold _get_token. fold secret.
  destruct (truthy secret) eqn:Hs; simpl.
  - rewrite Hs. repeat split; auto; discriminate.
  - repeat split; auto; try discriminate.
    intros [H|H]; [discriminate | exact H].
Qed.

(** ** Live readings *)

Lemma ebind_inr {E A B : Type} (m : E + A) (k : A -> E + B) (b : B) :
  ebind m k = inr b -> exists a, m = inr a /\ k a = inr b.
Proof.
  destruct m as [e|a]; simpl; [discriminate|].
  intros H. exists a. split; [reflexivity | exact H].
Qed.

Ltac ebind_inv H :=
  repeat match type of H with
         | ebind _ _ = inr _ =>
             let a := fresh "v" in
             let Ha := fresh "Hv" in
             apply ebind_inr in H; destruct H as (a & Ha & H)
         end.

(** The [try] block yields both the index and the coordinates, or
    neither. *)
Lemma fetch_live_aqi_paired (rt : Runtime) (url : string) (r : LiveAqi) :
  fetch_live_aqi rt url = inr r ->
  (fst (fst r) = None /\ snd (fst r) = None) \/
  (exists n x y, fst (fst r) = Some n /\ snd (fst r) = Some (x, y)).
Proof.
  unfold fetch_live_aqi. intros H. ebind_inv H.
  destruct (json_ne_str v0 "ok").
  - injection H as <-. left. split; reflexivity.
  - ebind_inv H. injection H as <-. right. do 3 eexists. split; reflexivity.
Qed.

Lemma get_live_aqi_paired (rt : Runtime) (token : option string) (city : string) :
  let r := get_live_aqi rt token city in
  (fst (fst r) = None /\ snd (fst r) = None) \/
  (exists n x y, fst (fst r) = Some n /\ snd (fst r) = Some (x, y)).
Proof.
  unfold get_live_aqi.
  destruct token as [tok|]; [|left; split; reflexivity].
  destruct (String.eqb tok ""); [left; split; reflexivity|].
  destruct (fetch_live_aqi rt _) as [e|r] eqn:Hf.
  - left; split; reflexivity.
  - exact (fetch_live_aqi_paired _ _ _ Hf).
Qed.

(** X11.  [get_live_aqi] reports the index and the coordinates together:
    on every path, for any token, city, runtime and network answer, the
    index is [None] exactly when the coordinates are [None]. *)
Theorem X11_get_live_aqi_paired :
  forall (rt : Runtime) (WAQI_TOKEN : option string) (city : string),
    let '(aqi, geo, _) := get_live_aqi rt WAQI_TOKEN city in
    aqi = None <-> geo = None.
Proof.
  intros rt token city.
  pose proof (get_live_aqi_paired rt token city) as H.
  destruct (get_live_aqi rt token city) as [[aqi geo] info]; simpl in H.
  destruct H as [[-> ->] | (n & x & y & -> & ->)]; split; congruence.
Qed.

Lemma get_live_aqi_no_token (rt : Runtime) (token : option string) (city : string) :
  truthy token = false -> get_live_aqi rt token city = (None, None, JDict []).
Proof.
  unfold get_live_aqi, truthy. destruct token as [tok|]; [|reflexivity].
  destruct (String.eqb tok ""); [reflexivity | discriminate].
Qed.

Lemma ncr_loop (rt : Runtime) (token : option string) (cs : list string) :
  forall acc : list Row,
    fold_left
      (fun rows c =>
         let '(aqi, geo, _) := get_live_aqi rt token c in
         match aqi, geo with
         | Some a, Some g =>
             (rows ++ [{| City := c; AQI := a; lat := fst g; lon := snd g |}])%list
         | _, _ => rows
         end)
      cs acc
    = (acc ++ flat_map (rows_of_city rt token) cs)%list.
Proof.
  induction cs as [|c cs IH]; intros acc; simpl.
  - symmetry. apply app_nil_r.
  - rewrite IH. unfold rows_of_city at 2.
    destruct (get_live_aqi rt token c) as [[[a|] [g|]] info]; simpl;
      try reflexivity.
    rewrite <- app_assoc. reflexivity.
Qed.

Lemma get_ncr_points_flat_map (rt : Runtime) (token : option string) :
  get_ncr_points rt token =
  flat_map (rows_of_city rt token)
           ["Delhi"; "Noida"; "Gurgaon"; "Ghaziabad"; "Faridabad"].
Proof.
  unfold get_ncr_points. cbv zeta. apply ncr_loop.
Qed.

Lemma rows_of_city_spec (rt : Runtime) (token : option string) (c : string) :
  (has_reading rt token c = false /\ rows_of_city rt token c = []) \/
  (has_reading rt token c = true /\
   exists a x y info,
     get_live_aqi rt token c = (Some a, Some (x, y), info) /\
     rows_of_city rt token c = [{| City := c; AQI := a; lat := x; lon := y |}]).
Proof.
  pose proof (get_live_aqi_paired rt token c) as H.
  unfold has_reading, rows_of_city.
  destruct (get_live_aqi rt token c) as [[aqi geo] info]; simpl in H.
  destruct H as [[-> ->] | (n & x & y & -> & ->)].
  - left. split; reflexivity.
  - right. split; [reflexivity|]. exists n, x, y, info. split; reflexivity.
Qed.

(** X12.  Without a usable token nothing is fetched: when neither the
    secrets store nor the environment holds a non-empty token,
    [get_live_aqi] returns [(None, None, {})] for every city, whatever the
    network would answer, and [get_ncr_points] has no row. *)
Theorem X12_no_token_no_reading :
  forall (rt : Runtime) (secrets : option (option string)) (env : option string),
    truthy (match secrets with Some v => v | None => None end) = false ->
    truthy env = false ->
    (forall city : string,
       get_live_aqi rt (_get_token secrets env) city = (None, None, JDict [])) /\
    get_ncr_points rt (_get_token secrets env) = [].
Proof.
  intros rt secrets env Hs He.
  assert (Htok : truthy (_get_token secrets env) = false)
    by (unfold _get_token; rewrite Hs; exact He).
  split.
  - intros city. apply get_live_aqi_no_token, Htok.
  - rewrite get_ncr_points_flat_map. unfold rows_of_city.
    simpl. rewrite !get_live_aqi_no_token by exact Htok. reflexivity.
Qed.

(** No secrets file and an empty environment variable: the example
    network, which would answer for Delhi, is not asked. *)
Lemma X12_no_token_no_reading_example :
  get_live_aqi example_runtime (_get_token None (Some "")) "Delhi" =
    (None, None, JDict []) /\
  get_ncr_points example_runtime (_get_token None (Some "")) = [].
Proof.
  destruct (X12_no_token_no_reading example_runtime None (Some "")) as [H1 H2];
    try reflexivity.
  split; [apply H1 | exact H2].
Defined.

Lemma json_ne_str_false (x : json) (s : string) :
  json_ne_str x s = false -> x = JStr s.
Proof.
  destruct x; simpl; try discriminate.
  intros H. apply Bool.negb_false_iff, String.eqb_eq in H. congruence.
Qed.

(** X13.  A reading is only ever taken from a response whose status is
    "ok": whenever [get_live_aqi] returns an index [n], a non-empty token
    was configured, the request for the city's feed URL succeeded, the third
    component is that response, and [n], [lat], [lon] are [int] and [float]
    of its [data.aqi] and of the two items of [data.city.geo]. *)
Theorem X13_get_live_aqi_reading :
  forall (rt : Runtime) (WAQI_TOKEN : option string) (city : string)
         (n : Z) (geo : option (R * R)) (res : json),
    get_live_aqi rt WAQI_TOKEN city = (Some n, geo, res) ->
    exists (token : string) (data aqi cityv geov a b : json) (x y : R),
      WAQI_TOKEN = Some token /\ token <> "" /\
      requests_get_json rt
        ("https://api.waqi.info/feed/" ++ city ++ "/?token=" ++ token) = inr res /\
      json_get rt res "status" = inr (JStr "ok") /\
      json_getitem rt res "data" = inr data /\
      json_getitem rt data "aqi" = inr aqi /\
      json_getitem rt data "city" = inr cityv /\
      json_getitem rt cityv "geo" = inr geov /\
      unpack2 rt geov = inr (a, b) /\
      py_int rt aqi = inr n /\
      py_float rt a = inr x /\ py_float rt b = inr y /\
      geo = Some (x, y).
Proof.
  intros rt tok city n geo res. unfold get_live_aqi.
  destruct tok as [token|]; [|discriminate].
  destruct (String.eqb token "") eqn:Htok; [discriminate|].
  apply String.eqb_neq in Htok.
  destruct (fetch_live_aqi rt _) as [e|r] eqn:Hf; [discriminate|].
  intros ->. unfold fetch_live_aqi in Hf. ebind_inv Hf.
  destruct (json_ne_str v0 "ok") eqn:Hst; [discriminate|].
  apply json_ne_str_false in Hst. subst v0.
  ebind_inv Hf. injection Hf as <- <- <-.
  match goal with
  | H1 : json_getitem rt ?r "data" = inr ?d1,
    H2 : json_getitem rt ?r "data" = inr ?d2 |- _ =>
      assert (d2 = d1) by congruence; subst d2
  end.
  match goal with
  | H : unpack2 _ _ = inr ?latlon |- _ => destruct latlon as [a b]
  end.
  simpl in *.
  do 9 eexists.
  repeat (split; [eassumption || reflexivity|]). reflexivity.
Qed.

Lemma X13_get_live_aqi_reading_example :
  get_live_aqi example_runtime (Some "demo") "Delhi" =
    (Some 187%Z, Some (28.6, 77.2), example_response) /\
  exists token : string,
    requests_get_json example_runtime
      ("https://api.waqi.info/feed/" ++ "Delhi" ++ "/?token=" ++ token) =
    inr example_response.
Proof.
  assert (H : get_live_aqi example_runtime (Some "demo") "Delhi" =
              (Some 187%Z, Some (28.6, 77.2), example_response))
    by reflexivity.
  split; [exact H|].
  destruct (X13_get_live_aqi_reading _ _ _ _ _ _ H)
    as (token & data & aqi & cityv & geov & a & b & x & y & _ & _ & Hreq & _).
  exists token. exact Hreq.
Defined.

(** X14.  The station table has one row for each of the five cities that
    has a reading and none for the others, in the order Delhi, Noida,
    Gurgaon, Ghaziabad, Faridabad, and each row carries the index and the
    coordinates that [get_live_aqi] returned for its city. *)
Theorem X14_get_ncr_points_rows :
  forall (rt : Runtime) (WAQI_TOKEN : option string),
    let rows := get_ncr_points rt WAQI_TOKEN in
    map City rows =
      filter (has_reading rt WAQI_TOKEN)
             ["Delhi"; "Noida"; "Gurgaon"; "Ghaziabad"; "Faridabad"] /\
    (List.length rows <= 5)%nat /\
    Forall (fun r => exists info : json,
              get_live_aqi rt WAQI_TOKEN (City r) =
              (Some (AQI r), Some (lat r, lon r), info)) rows.
Proof.
  intros rt token rows. unfold rows. rewrite get_ncr_points_flat_map.
  set (cs := ["Delhi"; "Noida"; "Gurgaon"; "Ghaziabad"; "Faridabad"]).
  assert (Hlen : (List.length cs <= 5)%nat) by (simpl; apply le_n).
  clearbody cs. revert Hlen.
  assert (H : map City (flat_map (rows_of_city rt token) cs) =
              filter (has_reading rt token) cs /\
              (List.length (flat_map (rows_of_city rt token) cs) <= List.length cs)%nat /\
              Forall (fun r => exists info : json,
                        get_live_aqi rt token (City r) =
                        (Some (AQI r), Some (lat r, lon r), info))
                     (flat_map (rows_of_city rt token) cs)).
  { induction cs as [|c cs (IH1 & IH2 & IH3)]; simpl.
    - repeat split; [apply le_n | apply Forall_nil].
    - destruct (rows_of_city_spec rt token c)
        as [[-> ->] | [-> (a & x & y & info & Hget & ->)]]; simpl.
      + repeat split; [exact IH1 | apply Nat.le_le_succ_r, IH2 | exact IH3].
      + repeat split.
        * f_equal. exact IH1.
        * apply le_n_S, IH2.
        * apply Forall_cons; [exists info; exact Hget | exact IH3]. }
  destruct H as (H1 & H2 & H3). intros Hlen.
  repeat split; [exact H1 | apply Nat.le_trans with (List.length cs); assumption | exact H3].
Qed.

(** The example network through [get_ncr_points]: only Delhi answers. *)
Lemma X14_get_ncr_points_rows_example :
  map City (get_ncr_points example_runtime (Some "demo")) = ["Delhi"] /\
  map AQI (get_ncr_points example_runtime (Some "demo")) = [187%Z].
Proof.
  split.
  - rewrite (proj1 (X14_get_ncr_points_rows example_runtime (Some "demo"))).
    reflexivity.
  - reflexivity.
Defined.

(** ** The pages *)

Lemma int_of_float_IZR (n : Z) : int_of_float (IZR n) = n.
Proof.
  unfold int_of_float. destruct (Rle_dec 0 (IZR n)) as [Hpos|Hneg].
  - symmetry. apply Int_part_spec. lra.
  - rewrite <- opp_IZR.
    replace (Int_part (IZR (- n))) with (- n)%Z
      by (apply Int_part_spec; lra).
    apply Z.opp_involutive.
Qed.

Lemma int_of_float_200 : int_of_float 200 = 200%Z.
Proof. apply (int_of_float_IZR 200). Qed.



(** X16.  The card loop of the forecast page stops at the shortest of its
    three sequences: it yields one card for each forecast value up to the
    third (none for an empty forecast), in the order of [days]; the card at
    a position names that day and shows the truncated value and the advisory
    of the value, and the bar colour computed for that position is the
    card's colour. *)
Theorem X16_forecast_cards_bars :
  forall fc : list R,
    List.length (forecast_cards fc) = Nat.min 3 (List.length fc) /\
    List.length (forecast_colors fc) = List.length fc /\
    (forall k : nat, (k < List.length (forecast_cards fc))%nat ->
       nth k (forecast_cards fc) ("", 0%Z, tier_severe) =
         (nth k days "", int_of_float (nth k fc 0),
          health_advisory (nth k fc 0)) /\
       nth k (forecast_colors fc) "" =
         color (snd (nth k (forecast_cards fc) ("", 0%Z, tier_severe)))).
Proof.
  intros fc. unfold forecast_colors, forecast_cards, days.
  split; [|split; [apply length_map|]].
  - rewrite length_map, !length_combine. cbn [List.length]. lia.
  - intros k Hk. rewrite length_map, !length_combine in Hk.
    cbn [List.length] in Hk.
    destruct fc as [|a [|b [|c rest]]]; cbn [List.length] in Hk;
      try lia;
      (destruct k as [|[|[|k]]]; try lia;
       cbn [combine map nth snd color]; split; reflexivity).
Qed.



(** * The running program: binary64 *)

(** ** Dictionaries of floats *)

Lemma assoc_map {A B : Type} (f : A -> B) (d : list (string * A)) (k : string) :
  assoc (map (fun kv => (fst kv, f (snd kv))) d) k = option_map f (assoc d k).
Proof.
  induction d as [|[k0 v0] d IH]; simpl.
  - reflexivity.
  - destruct (String.eqb k0 k); [reflexivity | exact IH].
Qed.

Lemma dict64_mapM_total (f : float -> option float) (g : float -> float)
    (d : dict64) :
  (forall v, f v = Some (g v)) ->
  dict64_mapM f d = Some (map (fun kv => (fst kv, g (snd kv))) d).
Proof.
  intros Hf. induction d as [|[k v] d IH]; simpl.
  - reflexivity.
  - rewrite Hf; simpl. rewrite IH; reflexivity.
Qed.

Lemma py_or64_nonzero (x : float) : PrimFloat.eqb (py_or64 x 1) 0 = false.
Proof.
  unfold py_or64. destruct (PrimFloat.eqb x 0) eqn:E; [reflexivity | exact E].
Qed.

(** ** Forecast calibration *)

Lemma calibrated_forecast64_shift (model : Model64) (steps : nat) (live : float) :
  forecast64 model steps <> [] ->
  calibrated_forecast64 model (Some live) steps =
  map (fun v => (v + (live - nth 0 (forecast64 model steps) 0))%float)
      (forecast64 model steps).
Proof.
  unfold calibrated_forecast64.
  destruct (forecast64 model steps) as [|b0 bs]; [congruence | reflexivity].
Qed.




(** ** Source attribution *)

(** The guarded total is never zero, so no division raises: the result is
    the raw sums, each divided by the guarded total and multiplied by 100. *)
Lemma source_buckets64_normalised (importance : list float) :
  let buckets := bucket_sums64 importance in
  let total := py_or64 (py_sum64 (map snd buckets)) 1 in
  source_buckets64 importance =
  Some (map (fun kv => (fst kv, (snd kv / total * 100)%float)) buckets).
Proof.
  intros buckets total. unfold source_buckets64. fold buckets. fold total.
  apply (dict64_mapM_total _ (fun v => (v / total * 100)%float)). intros v.
  unfold py_div64. unfold total at 1. rewrite py_or64_nonzero. reflexivity.
Qed.

Lemma bucket_sums64_zero (importance : list float) :
  Forall (fun x => x = 0%float) importance ->
  bucket_sums64 importance = buckets64_of 0 0 0 0.
Proof.
  intros H.
  destruct importance as [|a [|b [|c [|d [|e [|f rest]]]]]];
    repeat match goal with
           | H : Forall _ (_ :: _) |- _ => inversion H; subst; clear H
           end;
    vm_compute; reflexivity.
Qed.




(** ** Policy simulator *)

Lemma has_buckets64_of (bt bd bi bp : float) :
  has_buckets64 (buckets64_of bt bd bi bp) bt bd bi bp.
Proof. repeat split. Qed.

Lemma policy_eff64_value (buckets : dict64) (bt bd bi bp t d i p : float) :
  has_buckets64 buckets bt bd bi bp ->
  policy_eff64 buckets t d i p =
  Some (bt / 100 * (t / 100) + bd / 100 * (d / 100) +
        bi / 100 * (i / 100) + bp / 100 * (p / 100))%float.
Proof.
  intros (Ht & Hd & Hi & Hp). unfold policy_eff64.
  rewrite !(assoc_map (fun v => (v / 100)%float)), Ht, Hd, Hi, Hp. reflexivity.
Qed.



